(** * Abuse-report routing: a model of [synapse/handlers/abuse_reports.py]

    The handler [AbuseReportHandler] routes a report either to the
    homeserver administrators (it is stored) or to the moderators of the
    room (server notices and federation EDUs), and ingests reports that
    arrive over federation.

    The Python coroutines are embedded as functions into a small
    writer/exception monad [Coro]: a run yields the list of collaborator
    calls it performed, in order, and either a value or the exception it
    raised.  Collaborators that answer questions (the store, the state
    handler, the visibility filter, the configuration) are fields of the
    record [HomeServer]; collaborator calls that act (storing a report,
    sending a notice or an EDU, logging) are recorded and return
    normally.

    Python is dynamically typed: where the handler passes a [str] to a
    coroutine annotated with [RoomID], the model passes it too, and the
    method call on it fails as it does in Python. *)

From Stdlib Require Import ZArith Ascii String.
From stdpp Require Import gmap strings list.

Local Open Scope Z_scope.
Local Open Scope string_scope.
Local Open Scope list_scope.

Set Warnings "-register-all".

(** ** JSON values and dictionaries *)

(** A value of a [JsonDict]: what a request body or an EDU content may
    carry under a key. *)
Inductive json : Type :=
| JNull
| JBool (b : bool)
| JInt (z : Z)
| JStr (s : string)
| JList (l : list json)
| JObj (o : list (string * json)).

Abbreviation JsonDict := (gmap string json).

(** [s == j] for a Python [str] [s] and a JSON value [j]: equal only to
    the same string. *)
Definition py_str_eq (s : string) (j : json) : bool :=
  match j with
  | JStr s' => bool_decide (s = s')
  | _ => false
  end.

(** [Optional[int]] and [Optional[str]] as they are stored in a dict. *)
Definition json_of_int (o : option Z) : json :=
  match o with Some z => JInt z | None => JNull end.

Definition json_of_str (o : option string) : json :=
  match o with Some s => JStr s | None => JNull end.

(** ** Exceptions *)

Inductive Codes : Type :=
| BAD_JSON | NOT_FOUND | MISSING_PARAM | INVALID_PARAM | UNKNOWN.

Inductive exn : Type :=
| SynapseError (code : Z) (msg : string) (errcode : Codes)
| KeyError (key : string)
| AttributeError (attr : string).

(** [HTTPStatus.BAD_REQUEST] and [HTTPStatus.NOT_FOUND]. *)
Definition HTTP_BAD_REQUEST : Z := 400.
Definition HTTP_NOT_FOUND : Z := 404.

Inductive Res (A : Type) : Type :=
| Ok (a : A)
| Raise (e : exn).
Arguments Ok {A} a.
Arguments Raise {A} e.

#[global] Instance Res_ret : MRet Res := fun A a => Ok a.
#[global] Instance Res_bind : MBind Res := fun A B f m =>
  match m with
  | Ok a => f a
  | Raise e => Raise e
  end.

(** [d.pop(k)]: the value and the dictionary without the key, or
    [KeyError]. *)
Definition dict_pop (k : string) (d : JsonDict) : Res (json * JsonDict) :=
  match d !! k with
  | Some v => Ok (v, delete k d)
  | None => Raise (KeyError k)
  end.

(** ** Collaborator calls *)

Inductive Effect : Type :=
| add_event_report (room_id event_id user_id reason : string)
    (content : JsonDict) (received_ts : Z)
| send_notice (user_id type : string) (event_content : JsonDict)
| build_and_send_edu (destination edu_type : string) (content : JsonDict)
| logger_warning (fmt : string) (args : list json).

(** A coroutine run to completion: the calls it made, then its outcome. *)
Definition Coro (A : Type) : Type := list Effect * Res A.

#[global] Instance Coro_ret : MRet Coro := fun A a => ([], Ok a).
#[global] Instance Coro_bind : MBind Coro := fun A B f m =>
  match m with
  | (t, Ok a) => let '(t', r) := f a in (t ++ t', r)
  | (t, Raise e) => (t, Raise e)
  end.

Definition lift {A} (r : Res A) : Coro A := ([], r).
Definition raise {A} (e : exn) : Coro A := ([], Raise e).
Definition emit (e : Effect) : Coro unit := ([e], Ok tt).

Definition effects {A} (m : Coro A) : list Effect := fst m.
Definition outcome {A} (m : Coro A) : Res A := snd m.

(** ** Identifiers and library helpers

    [synapse.types], [synapse.api.constants] and [synapse.http.servlet]
    are not part of the sources at hand; the handler is verified against
    their interface. *)

(** [DomainSpecificString]: the base of [UserID] and [RoomID]. *)
Class DomainSpecificString (T : Type) : Type := {
  to_string : T -> string;
  from_string : string -> Res T;
  domain : T -> string;
}.

Class SynapseLib : Type := {
  EduTypes_ContentReport : string;
  EventTypes_Message : string;
  EventTypes_PowerLevels : string;
  ServerNoticeContentReport : string;
  get_domain_from_id : json -> Res string;
  assert_params_in_dict : JsonDict -> list string -> Res unit;
}.

(** ** Room state and the homeserver *)

(** An event as the handler sees it: only its room is read. *)
Record EventBase : Type := { ev_room_id : string }.

(** The content of an [m.room.power_levels] event.  Power levels and the
    two thresholds are integers; each of the three keys may be absent. *)
Record PowerLevels : Type := {
  pl_ban : option Z;
  pl_kick : option Z;
  pl_users : option (list (string * Z));
}.

Record HomeServer : Type := {
  hostname : string;
  (** [self.federation_sender] is set iff [hs.should_send_federation()] *)
  should_send_federation : bool;
  (** [self.server_notices.is_enabled()] *)
  server_notices_is_enabled : bool;
  (** the events the datastore holds *)
  store_events : json -> option EventBase;
  (** [filter_events_for_client(storage, user, events, is_peeking)] *)
  filter_events_for_client :
    string -> list EventBase -> bool -> list EventBase;
  (** [self.state.get_current_state(room, type, state_key)] *)
  get_current_state : string -> string -> string -> option PowerLevels;
  (** [hs.get_clock().time_msec()] *)
  time_msec : Z;
}.

(** An insertion-ordered [Dict[str, List[V]]], as [moderators_by_hs]. *)
Fixpoint odict_get {V} (k : string) (d : list (string * V)) : option V :=
  match d with
  | [] => None
  | (k', v) :: d' => if decide (k' = k) then Some v else odict_get k d'
  end.

Fixpoint odict_set {V} (k : string) (v : V) (d : list (string * V))
  : list (string * V) :=
  match d with
  | [] => [(k, v)]
  | (k', v') :: d' =>
      if decide (k' = k) then (k', v) :: d' else (k', v') :: odict_set k v d'
  end.

Section Handler.
Context {UserID RoomID : Type}.
Context `{!DomainSpecificString UserID, !DomainSpecificString RoomID}.
Context `{!SynapseLib}.

(** What a coroutine may receive as [room_id]: a [RoomID] object, or a
    value taken from a JSON dictionary. *)
Inductive pyobj : Type :=
| ObjRoomID (r : RoomID)
| ObjJson (j : json).

(** [room_id.to_string()]: only [RoomID] has the method. *)
Definition call_to_string (o : pyobj) : Res string :=
  match o with
  | ObjRoomID r => Ok (to_string r)
  | ObjJson _ => Raise (AttributeError "to_string")
  end.

Variable hs : HomeServer.

(** Modelled from the spec: [HomeServer.is_mine] is missing; a user is
    this server's when "the moderator's server is this server". *)
Definition is_mine (u : UserID) : bool :=
  bool_decide (domain u = hostname hs).

(** Modelled from the spec: [store.get_event] is missing;
    [Store.lookupEvent(eventId) -> Event | NotFound]. *)
Definition store_get_event (event_id : json) : Coro EventBase :=
  match store_events hs event_id with
  | Some event => mret event
  | None =>
      raise (SynapseError HTTP_NOT_FOUND "Could not find event" NOT_FOUND)
  end.

(** *** [get_moderators] *)

(** The loop over [content["users"].items()]. *)
Fixpoint collect_moderators (moderator_level : Z)
    (items : list (string * Z)) (moderators : list UserID)
  : Res (list UserID) :=
  match items with
  | [] => Ok moderators
  | (member_id, level) :: items' =>
      if bool_decide (moderator_level <= level) then
        u ← from_string member_id;
        collect_moderators moderator_level items' (moderators ++ [u])
      else collect_moderators moderator_level items' moderators
  end.

Definition moderator_level (content : PowerLevels) : Z :=
  let ban_level := default 50 (pl_ban content) in
  let kick_level := default 50 (pl_kick content) in
  Z.max ban_level kick_level.

Definition get_moderators (room_id : pyobj) : Coro (list UserID) :=
  let moderators := [] in
  room_id_str ← lift (call_to_string room_id);
  match get_current_state hs room_id_str EventTypes_PowerLevels "" with
  | None =>
      raise (SynapseError HTTP_NOT_FOUND
               "This room doesn't seem to have moderators" NOT_FOUND)
  | Some content =>
      match pl_users content with
      | None => raise (KeyError "users")
      | Some items =>
          lift (collect_moderators (moderator_level content) items moderators)
      end
  end.

(** *** [_report_to_homeserver_admin] *)

Definition _report_to_homeserver_admin (room_id : RoomID)
    (event_id : string) (user_id : UserID) (reason : string)
    (content : JsonDict) : Coro (option (Z * JsonDict)) :=
  emit (add_event_report (to_string room_id) event_id (to_string user_id)
          reason content (time_msec hs));;
  mret (Some (200, ∅)).

(** *** [_report_to_room_moderators] *)

Definition report_event_content (room_id : RoomID) (event_id : string)
    (user_id : UserID) (reason : string) (score : option Z)
    (nature : option string) : JsonDict :=
  <["body" := JStr "User has reported content"]>
  (<["msgtype" := JStr ServerNoticeContentReport]>
  (<["room_id" := JStr (to_string room_id)]>
  (<["event_id" := JStr event_id]>
  (<["user_id" := JStr (to_string user_id)]>
  (<["score" := json_of_int score]>
  (<["reason" := JStr reason]>
  (<["nature" := json_of_str nature]> ∅))))))).

(** One round of the grouping loop: the key is [user_id.domain]. *)
Definition group_step (user_id : UserID)
    (moderators_by_hs : list (string * list UserID)) (moderator : UserID)
  : list (string * list UserID) :=
  let hs_ := domain user_id in
  match odict_get hs_ moderators_by_hs with
  | None => odict_set hs_ [moderator] moderators_by_hs
  | Some moderators_on_hs =>
      odict_set hs_ (moderators_on_hs ++ [moderator]) moderators_by_hs
  end.

Definition group_moderators (user_id : UserID) (moderators : list UserID)
  : list (string * list UserID) :=
  fold_left (group_step user_id) moderators [].

Fixpoint send_notices (event_content : JsonDict) (moderators : list UserID)
  : Coro unit :=
  match moderators with
  | [] => mret tt
  | moderator_id :: rest =>
      emit (send_notice (to_string moderator_id) EventTypes_Message
              event_content);;
      send_notices event_content rest
  end.

Fixpoint dispatch (event_content : JsonDict)
    (groups : list (string * list UserID)) : Coro unit :=
  match groups with
  | [] => mret tt
  | (hs_, moderators) :: rest =>
      (if bool_decide (hostname hs = hs_) then
         if server_notices_is_enabled hs
         then send_notices event_content moderators
         else mret tt
       else if should_send_federation hs then
         emit (build_and_send_edu hs_ EduTypes_ContentReport event_content)
       else mret tt);;
      dispatch event_content rest
  end.

Definition _report_to_room_moderators (room_id : RoomID)
    (event_id : string) (user_id : UserID) (reason : string)
    (score : option Z) (nature : option string)
  : Coro (option (Z * JsonDict)) :=
  event ← store_get_event (JStr event_id);
  if negb (bool_decide (ev_room_id event = to_string room_id)) then
    raise (SynapseError HTTP_NOT_FOUND "Cannot find event" NOT_FOUND)
  else
    let events :=
      filter_events_for_client hs (to_string user_id) [event] true in
    if bool_decide (length events = 0%nat) then
      raise (SynapseError HTTP_NOT_FOUND "Cannot find event" NOT_FOUND)
    else
      moderators ← get_moderators (ObjRoomID room_id);
      let event_content :=
        report_event_content room_id event_id user_id reason score nature in
      again ← get_moderators (ObjRoomID room_id);
      let moderators_by_hs := group_moderators user_id again in
      dispatch event_content moderators_by_hs;;
      mret None.

(** *** [report] *)

Definition report (user_id : UserID) (body : JsonDict)
    (room_id event_id reason : string) (score : Z) (nature : option string)
  : Coro (option (Z * JsonDict)) :=
  typed_room_id ← lift (from_string (T := RoomID) room_id);
  lift (assert_params_in_dict body ["reason"; "score"]);;
  let target :=
    default (JStr "homeserver-admins")
      (body !! "org.matrix.msc2938.target") in
  if py_str_eq "room-moderators" target then
    _report_to_room_moderators typed_room_id event_id user_id reason
      (Some score) nature
  else if py_str_eq "homeserver-admins" target then
    _report_to_homeserver_admin typed_room_id event_id user_id reason body
  else
    raise (SynapseError HTTP_BAD_REQUEST
      "Optional param 'target' must be one of ['homeserver-admins', 'room-moderators']"
      BAD_JSON).

(** *** [on_receive_report_through_federation] *)

Definition federated_event_content (room_id event_id reporter_id
    score reason : json) : JsonDict :=
  <["body" := JStr "User has reported content"]>
  (<["msgtype" := JStr ServerNoticeContentReport]>
  (<["room_id" := room_id]>
  (<["event_id" := event_id]>
  (<["reporter_id" := reporter_id]>
  (<["score" := score]>
  (<["reason" := reason]> ∅)))))).

(** The loop over [all_moderators]. *)
Fixpoint notify_mine (event_content : JsonDict)
    (all_moderators : list UserID) : Coro unit :=
  match all_moderators with
  | [] => mret tt
  | moderator_id :: rest =>
      (if is_mine moderator_id then
         emit (send_notice (to_string moderator_id) EventTypes_Message
                 event_content)
       else mret tt);;
      notify_mine event_content rest
  end.

(** The handler once the five fields are taken out of the content. *)
Definition ingest_report (origin : string)
    (room_id event_id reporter_id score reason : json) : Coro unit :=
  reporter_domain ← lift (get_domain_from_id reporter_id);
  if negb (bool_decide (reporter_domain = origin)) then
    emit (logger_warning
            "Received invalid event report edu: user is %s but domain %s"
            [reporter_id; JStr origin])
  else
    match store_events hs event_id with
    | None =>
        emit (logger_warning
                "Received invalid event report edu: no such event %s"
                [event_id])
    | Some event =>
        if negb (py_str_eq (ev_room_id event) room_id) then
          emit (logger_warning
            "Received invalid event report edu: room is %s but event's room is %s"
            [room_id; JStr (ev_room_id event)])
        else
          let event_content :=
            federated_event_content room_id event_id reporter_id
              score reason in
          all_moderators ← get_moderators (ObjJson room_id);
          notify_mine event_content all_moderators
    end.

Definition on_receive_report_through_federation (origin : string)
    (edu_content : JsonDict) : Coro unit :=
  '(room_id, edu_content) ← lift (dict_pop "room_id" edu_content);
  '(event_id, edu_content) ← lift (dict_pop "event_id" edu_content);
  '(reporter_id, edu_content) ← lift (dict_pop "reporter_id" edu_content);
  '(score, edu_content) ← lift (dict_pop "score" edu_content);
  '(reason, edu_content) ← lift (dict_pop "reason" edu_content);
  ingest_report origin room_id event_id reporter_id score reason.

End Handler.

(** ** A reference instance

    Identifiers of the form [<sigil>localpart:domain], required
    parameters checked for presence, and a small homeserver: the inputs
    on which the handler is run below. *)
Module Reference.

Record UserID : Type := { user_localpart : string; user_domain : string }.
Record RoomID : Type := { room_localpart : string; room_domain : string }.

(** [s.split(":", 1)] when it yields two parts. *)
Fixpoint split_colon (s : string) : option (string * string) :=
  match s with
  | EmptyString => None
  | String c rest =>
      if Ascii.eqb c ":"%char then Some (EmptyString, rest)
      else match split_colon rest with
           | Some (l, d) => Some (String c l, d)
           | None => None
           end
  end.

Definition parse_id (sigil : Ascii.ascii) (s : string)
  : Res (string * string) :=
  match s with
  | String c rest =>
      if Ascii.eqb c sigil then
        match split_colon rest with
        | Some p => Ok p
        | None => Raise (SynapseError 400 "Expected localname:domain" INVALID_PARAM)
        end
      else Raise (SynapseError 400 "Expected sigil" INVALID_PARAM)
  | EmptyString => Raise (SynapseError 400 "Expected sigil" INVALID_PARAM)
  end.

#[global] Instance UserID_dss : DomainSpecificString UserID := {|
  to_string u := String "@"%char (user_localpart u +:+ ":" +:+ user_domain u);
  from_string s :=
    match parse_id "@"%char s with
    | Ok (l, d) => Ok {| user_localpart := l; user_domain := d |}
    | Raise e => Raise e
    end;
  domain := user_domain;
|}.

#[global] Instance RoomID_dss : DomainSpecificString RoomID := {|
  to_string r := String "!"%char (room_localpart r +:+ ":" +:+ room_domain r);
  from_string s :=
    match parse_id "!"%char s with
    | Ok (l, d) => Ok {| room_localpart := l; room_domain := d |}
    | Raise e => Raise e
    end;
  domain := room_domain;
|}.

Definition domain_of_id (j : json) : Res string :=
  match j with
  | JStr s =>
      match split_colon s with
      | Some (_, d) => Ok d
      | None => Raise (SynapseError 400 "Invalid ID" UNKNOWN)
      end
  | _ => Raise (AttributeError "find")
  end.

Definition params_in_dict (body : JsonDict) (required : list string)
  : Res unit :=
  if forallb (fun k => bool_decide (is_Some (body !! k))) required
  then Ok tt
  else Raise (SynapseError 400 "Missing params" MISSING_PARAM).

#[global] Instance lib : SynapseLib := {|
  EduTypes_ContentReport := "org.matrix.msc2938.content_report";
  EventTypes_Message := "m.room.message";
  EventTypes_PowerLevels := "m.room.power_levels";
  ServerNoticeContentReport := "org.matrix.msc2938.notice.content_report";
  get_domain_from_id := domain_of_id;
  assert_params_in_dict := params_in_dict;
|}.

(** The room [!room:local.org] on the server [local.org]: Bob is a local
    moderator, Carol a moderator on [remote.org], Dave an ordinary
    member; the event [$ev1] was sent there. *)
Definition the_room : RoomID :=
  {| room_localpart := "room"; room_domain := "local.org" |}.
Definition alice : UserID :=
  {| user_localpart := "alice"; user_domain := "local.org" |}.
Definition bob : UserID :=
  {| user_localpart := "bob"; user_domain := "local.org" |}.
Definition carol : UserID :=
  {| user_localpart := "carol"; user_domain := "remote.org" |}.

Definition room_levels : PowerLevels :=
  {| pl_ban := Some 50; pl_kick := Some 50;
     pl_users := Some [("@bob:local.org", 100); ("@carol:remote.org", 50);
                       ("@dave:local.org", 0)] |}.

(** The homeserver [local.org], with the notice subsystem on or off and
    the power-level content of the room (if it has one). *)
Definition homeserver (notices : bool) (levels : option PowerLevels)
  : HomeServer :=
  {| hostname := "local.org";
     should_send_federation := true;
     server_notices_is_enabled := notices;
     store_events j :=
       if py_str_eq "$ev1" j then Some {| ev_room_id := "!room:local.org" |}
       else None;
     filter_events_for_client _ events _ := events;
     get_current_state room type key :=
       if bool_decide (room = "!room:local.org") &&
          bool_decide (type = "m.room.power_levels") &&
          bool_decide (key = "")
       then levels else None;
     time_msec := 1000 |}.

Definition local_hs (notices : bool) : HomeServer :=
  homeserver notices (Some room_levels).

(** Power levels without a [users] mapping. *)
Definition levels_without_users : PowerLevels :=
  {| pl_ban := Some 50; pl_kick := None; pl_users := None |}.

Definition admins_body : JsonDict :=
  <["reason" := JStr "spam"]> (<["score" := JInt (-50)]> ∅).

Definition moderators_body : JsonDict :=
  <["org.matrix.msc2938.target" := JStr "room-moderators"]> admins_body.

(** The same request with a field of the caller's own. *)
Definition crafted_body : JsonDict :=
  <["msgtype" := JStr "m.text"]> moderators_body.

Definition inbound_edu : JsonDict :=
  <["room_id" := JStr "!room:local.org"]>
  (<["event_id" := JStr "$ev1"]>
  (<["reporter_id" := JStr "@eve:remote.org"]>
  (<["score" := JInt (-50)]>
  (<["reason" := JStr "spam"]> ∅)))).

(** The same EDU content with a field of the peer's own. *)
Definition crafted_edu : JsonDict :=
  <["formatted_body" := JStr "<b>click</b>"]> inbound_edu.

(** Power levels whose [users] mapping holds a key that is not a user
    id at moderator level, and another one below it. *)
Definition levels_with_bad_member : PowerLevels :=
  {| pl_ban := None; pl_kick := Some 60;
     pl_users := Some [("@bob:local.org", 100); ("garbage", 10);
                       ("mallory", 60); ("@carol:remote.org", 100)] |}.

(** A request whose target is neither of the two recognised ones. *)
Definition everyone_body : JsonDict :=
  <["org.matrix.msc2938.target" := JStr "everyone"]> admins_body.

(** An EDU content whose reporter id has no domain part. *)
Definition edu_bad_reporter : JsonDict :=
  <["reporter_id" := JStr "eve"]> inbound_edu.

End Reference.

(** * Vocabulary of the statements *)

(** The user ids of [items] at or above [level], in order. *)
Definition qualifying (level : Z) (items : list (string * Z)) : list string :=
  (filter (fun p => level <= p.2) items).*1.

(** The not-found class of errors: status 404, code [NOT_FOUND]. *)
Definition not_found (msg : string) : exn :=
  SynapseError HTTP_NOT_FOUND msg NOT_FOUND.

(** The payload a notification carries: the content of a server notice
    or of an outbound EDU. *)
Definition payload_of (e : Effect) : option JsonDict :=
  match e with
  | send_notice _ _ event_content => Some event_content
  | build_and_send_edu _ _ content => Some content
  | _ => None
  end.

Definition is_log (e : Effect) : Prop :=
  exists fmt args, e = logger_warning fmt args.

(** The keys of the payload on the local path and on the federated path. *)
Definition local_payload_keys : gset string :=
  list_to_set ["body"; "msgtype"; "room_id"; "event_id"; "user_id";
               "score"; "reason"; "nature"].

Definition federated_payload_keys : gset string :=
  list_to_set ["body"; "msgtype"; "room_id"; "event_id"; "reporter_id";
               "score"; "reason"].

(** The fields the federated handler reads from an EDU content. *)
Definition edu_fields : list string :=
  ["room_id"; "event_id"; "reporter_id"; "score"; "reason"].

(** The destination of an outbound EDU. *)
Definition edu_destination (e : Effect) : option string :=
  match e with
  | build_and_send_edu destination _ _ => Some destination
  | _ => None
  end.

(** * Properties *)

(** ** The coroutine monad *)

Lemma lift_ok_bind {A B} (a : A) (f : A -> Coro B) :
  lift (Ok a) ≫= f = f a.
Proof. unfold lift, mbind, Coro_bind. simpl. by destruct (f a). Qed.

Lemma lift_raise_bind {A B} (e : exn) (f : A -> Coro B) :
  lift (Raise e) ≫= f = raise e.
Proof. reflexivity. Qed.

Lemma raise_bind {A B} (e : exn) (f : A -> Coro B) :
  raise e ≫= f = raise e.
Proof. reflexivity. Qed.

Lemma mret_bind {A B} (a : A) (f : A -> Coro B) :
  mret a ≫= f = f a.
Proof. apply lift_ok_bind. Qed.

Lemma effects_bind {A B} (m : Coro A) (f : A -> Coro B) :
  effects (m ≫= f) =
  effects m ++ match outcome m with
               | Ok a => effects (f a)
               | Raise _ => []
               end.
Proof.
  destruct m as [t [a|e]]; unfold mbind, Coro_bind, effects, outcome; simpl.
  - by destruct (f a).
  - by rewrite app_nil_r.
Qed.

Lemma outcome_bind {A B} (m : Coro A) (f : A -> Coro B) :
  outcome (m ≫= f) =
  match outcome m with
  | Ok a => outcome (f a)
  | Raise e => Raise e
  end.
Proof.
  destruct m as [t [a|e]]; unfold mbind, Coro_bind, outcome; simpl; [|done].
  by destruct (f a).
Qed.

Section Properties.
Context {UserID RoomID : Type}.
Context `{!DomainSpecificString UserID, !DomainSpecificString RoomID}.
Context `{!SynapseLib}.
Implicit Types (hs : HomeServer) (room : RoomID) (u user : UserID).

(** ** Moderator resolution *)

Lemma qualifying_cons level member l items :
  qualifying level ((member, l) :: items) =
  if bool_decide (level <= l) then member :: qualifying level items
  else qualifying level items.
Proof.
  unfold qualifying. rewrite filter_cons. simpl.
  case_bool_decide; case_decide; done.
Qed.

Lemma collect_moderators_spec level items :
  forall acc : list UserID,
  (forall member, member ∈ qualifying level items ->
     exists u : UserID, from_string member = Ok u) ->
  exists ms,
    collect_moderators level items acc = Ok (acc ++ ms) /\
    Forall2 (fun member u => from_string member = Ok u)
      (qualifying level items) ms.
Proof.
  induction items as [|[member l] items IH]; intros acc Hparse.
  - exists []. rewrite app_nil_r. split; [done | constructor].
  - rewrite qualifying_cons in Hparse |- *. simpl.
    case_bool_decide.
    + destruct (Hparse member) as [u Hu]; [left|].
      destruct (IH (acc ++ [u])) as (ms & Hms & Hall).
      { intros m Hm. apply Hparse. by right. }
      exists (u :: ms). rewrite Hu. simpl. unfold mbind, Res_bind.
      rewrite Hms, <- app_assoc. split; [done | by constructor].
    + apply IH, Hparse.
Qed.

(** [get_moderators] on a [RoomID]: the method call succeeds. *)
Lemma get_moderators_room hs room :
  get_moderators (UserID := UserID) hs (ObjRoomID room) =
  match get_current_state hs (to_string room) EventTypes_PowerLevels "" with
  | None =>
      raise (SynapseError HTTP_NOT_FOUND
               "This room doesn't seem to have moderators" NOT_FOUND)
  | Some content =>
      match pl_users content with
      | None => raise (KeyError "users")
      | Some items =>
          lift (collect_moderators (moderator_level content) items [])
      end
  end.
Proof. unfold get_moderators, call_to_string. by rewrite lift_ok_bind. Qed.

(** [get_moderators] on a value taken from a dictionary: a [str] (or
    any other JSON value) has no method [to_string]. *)
Lemma get_moderators_json hs (j : json) :
  get_moderators (UserID := UserID) (RoomID := RoomID) hs (ObjJson j) =
  raise (AttributeError "to_string").
Proof. reflexivity. Qed.

Lemma get_moderators_effects hs (room_id : pyobj (RoomID := RoomID)) :
  effects (get_moderators (UserID := UserID) hs room_id) = [].
Proof.
  destruct room_id as [r|j]; [|done]. rewrite get_moderators_room.
  destruct (get_current_state _ _ _ _) as [content|]; [|done].
  by destruct (pl_users content).
Qed.

(** ** The checks of [_report_to_room_moderators] *)

Lemma room_moderators_no_event hs room event_id user reason score nature :
  store_events hs (JStr event_id) = None ->
  _report_to_room_moderators hs room event_id user reason score nature =
  raise (not_found "Could not find event").
Proof.
  intros Hev. unfold _report_to_room_moderators, store_get_event.
  by rewrite Hev.
Qed.

Lemma room_moderators_other_room hs room event_id user reason score nature
    event :
  store_events hs (JStr event_id) = Some event ->
  ev_room_id event <> to_string room ->
  _report_to_room_moderators hs room event_id user reason score nature =
  raise (not_found "Cannot find event").
Proof.
  intros Hev Hroom. unfold _report_to_room_moderators, store_get_event.
  rewrite Hev, mret_bind. by rewrite bool_decide_eq_false_2.
Qed.

Lemma room_moderators_invisible hs room event_id user reason score nature
    event :
  store_events hs (JStr event_id) = Some event ->
  filter_events_for_client hs (to_string user) [event] true = [] ->
  _report_to_room_moderators hs room event_id user reason score nature =
  raise (not_found "Cannot find event").
Proof.
  intros Hev Hvis. unfold _report_to_room_moderators, store_get_event.
  rewrite Hev, mret_bind. case_bool_decide; [|done]. simpl.
  by rewrite Hvis.
Qed.

Lemma room_moderators_checked hs room event_id user reason score nature
    event :
  store_events hs (JStr event_id) = Some event ->
  ev_room_id event = to_string room ->
  filter_events_for_client hs (to_string user) [event] true <> [] ->
  _report_to_room_moderators hs room event_id user reason score nature =
  (get_moderators (UserID := UserID) hs (ObjRoomID room);;
   again ← get_moderators hs (ObjRoomID room);
   dispatch hs
     (report_event_content room event_id user reason score nature)
     (group_moderators user again);;
   mret None).
Proof.
  intros Hev Hroom Hvis. unfold _report_to_room_moderators, store_get_event.
  rewrite Hev, mret_bind. rewrite bool_decide_eq_true_2 by done. simpl.
  rewrite bool_decide_eq_false_2; [done|].
  intros Hlen. by apply Hvis, nil_length_inv.
Qed.

(** C2: for a room that has a power-level event, moderator resolution
    returns exactly the users of that event's [users] mapping whose power
    level is at least [max(ban, kick)], each threshold being 50 when
    absent (the user ids are parsed, in the order of the mapping); in
    particular, for [{ban: 50, kick: 50, users: {A: 100, B: 50, C: 0}}]
    it returns exactly A and B. *)
Theorem get_moderators_exact hs room content :
  get_current_state hs (to_string room) EventTypes_PowerLevels "" =
    Some content ->
  (forall items,
     pl_users content = Some items ->
     let level :=
       Z.max (default 50 (pl_ban content)) (default 50 (pl_kick content)) in
     (forall member, member ∈ qualifying level items ->
        exists u, from_string member = Ok u) ->
     exists moderators : list UserID,
       get_moderators hs (ObjRoomID room) = ([], Ok moderators) /\
       Forall2 (fun member u => from_string member = Ok u)
         (qualifying level items) moderators) /\
  (forall A B C (a b : UserID),
     content = {| pl_ban := Some 50; pl_kick := Some 50;
                  pl_users := Some [(A, 100); (B, 50); (C, 0)] |} ->
     from_string A = Ok a -> from_string B = Ok b ->
     get_moderators hs (ObjRoomID room) = ([], Ok [a; b])).
Proof.
  intros Hstate. split.
  - intros items Husers level Hparse.
    destruct (collect_moderators_spec level items [] Hparse)
      as (ms & Hms & Hall).
    exists ms. split; [|done].
    rewrite get_moderators_room, Hstate, Husers.
    unfold moderator_level. fold level. by rewrite Hms.
  - intros A B C a b -> HA HB.
    rewrite get_moderators_room, Hstate. simpl.
    unfold mbind, Res_bind. rewrite HA. simpl. by rewrite HB.
Qed.

(** C10: the [users] field of the power-level content is read with an
    unguarded lookup: when the power-level event exists but its content
    has no [users] mapping, resolution fails with a [KeyError], not with
    the not-found error; resolution returns a result only if the content
    has a [users] mapping. *)
Theorem get_moderators_users_unguarded hs room content :
  get_current_state hs (to_string room) EventTypes_PowerLevels "" =
    Some content ->
  (pl_users content = None ->
   get_moderators (UserID := UserID) hs (ObjRoomID room) =
     ([], Raise (KeyError "users"))) /\
  (forall moderators : list UserID,
     outcome (get_moderators hs (ObjRoomID room)) = Ok moderators ->
     is_Some (pl_users content)).
Proof.
  intros Hstate. rewrite get_moderators_room, Hstate. split.
  - by intros ->.
  - intros moderators. by destruct (pl_users content).
Qed.

(** C6: for a room with no power-level event, moderator resolution fails
    with the not-found error "This room doesn't seem to have moderators"
    (it does not return an empty list); on the dispatch path the call
    fails with a not-found error before any notification is made, and
    with that very error once the event checks have passed. *)
Theorem no_power_levels_no_moderators hs room :
  get_current_state hs (to_string room) EventTypes_PowerLevels "" = None ->
  get_moderators (UserID := UserID) hs (ObjRoomID room) =
    ([], Raise (not_found "This room doesn't seem to have moderators")) /\
  (forall event_id user reason score nature,
     let run :=
       _report_to_room_moderators hs room event_id user reason score nature in
     effects run = [] /\
     (exists msg, outcome run = Raise (not_found msg)) /\
     (forall event,
        store_events hs (JStr event_id) = Some event ->
        ev_room_id event = to_string room ->
        filter_events_for_client hs (to_string user) [event] true <> [] ->
        outcome run =
          Raise (not_found "This room doesn't seem to have moderators"))).
Proof.
  intros Hstate.
  assert (Hgm : get_moderators (UserID := UserID) hs (ObjRoomID room) =
    raise (not_found "This room doesn't seem to have moderators")).
  { by rewrite get_moderators_room, Hstate. }
  split; [done|]. intros event_id user reason score nature run.
  assert (Hcases :
    (exists msg, run = raise (not_found msg)) /\
    (forall event,
        store_events hs (JStr event_id) = Some event ->
        ev_room_id event = to_string room ->
        filter_events_for_client hs (to_string user) [event] true <> [] ->
        run = raise (not_found "This room doesn't seem to have moderators"))).
  { subst run.
    destruct (store_events hs (JStr event_id)) as [event|] eqn:Hev.
    - destruct (decide (ev_room_id event = to_string room)) as [Hroom|Hroom].
      + destruct (filter_events_for_client hs (to_string user) [event] true)
          as [|e es] eqn:Hvis.
        * split; [|by intros ? [= <-] _ ?].
          eexists. by eapply room_moderators_invisible.
        * assert (_report_to_room_moderators hs room event_id user reason
                    score nature =
                  raise (not_found "This room doesn't seem to have moderators"))
            as Hrun.
          { erewrite room_moderators_checked; [|done..|by rewrite Hvis].
            by rewrite Hgm. }
          split; [by eexists | by intros].
      + split; [|by intros ? [= <-] ?].
        eexists. by eapply room_moderators_other_room.
    - split; [|done]. eexists. by apply room_moderators_no_event. }
  destruct Hcases as [[msg Hmsg] Hchecked]. split; [by rewrite Hmsg|].
  split; [exists msg; by rewrite Hmsg|].
  intros event Hev Hroom Hvis. by rewrite (Hchecked event).
Qed.

(** C3: a report to the room moderators whose event does not exist, or
    belongs to another room than the one claimed, or is removed by the
    visibility filter (in peeking mode) for the reporting user, fails with
    a not-found error (404, [NOT_FOUND]) and performs no collaborator
    call: no local notice, no federation send.  The same holds through
    [report] for a body that targets "room-moderators". *)
Theorem room_moderators_unseen_event hs room event_id user reason nature :
  store_events hs (JStr event_id) = None \/
  (exists event,
     store_events hs (JStr event_id) = Some event /\
     (ev_room_id event <> to_string room \/
      filter_events_for_client hs (to_string user) [event] true = [])) ->
  (forall score, exists msg,
     _report_to_room_moderators hs room event_id user reason score
       nature = ([], Raise (not_found msg))) /\
  (forall body room_id score,
     from_string room_id = Ok room ->
     assert_params_in_dict body ["reason"; "score"] = Ok tt ->
     body !! "org.matrix.msc2938.target" = Some (JStr "room-moderators") ->
     exists msg,
       report (RoomID := RoomID) hs user body room_id event_id reason score
         nature = ([], Raise (not_found msg))).
Proof.
  intros Hbad.
  assert (forall score, exists msg,
     _report_to_room_moderators hs room event_id user reason score
       nature = ([], Raise (not_found msg))) as Hmsg.
  { intros score.
    destruct Hbad as [Hev | (event & Hev & [Hroom | Hvis])].
    - eexists. by apply room_moderators_no_event.
    - eexists. by eapply room_moderators_other_room.
    - eexists. by eapply room_moderators_invisible. }
  split.
  { intros score. apply Hmsg. }
  intros body room_id score Hparse Hparams Htarget.
  destruct (Hmsg (Some score)) as [msg Hrun]. exists msg.
  unfold report. rewrite Hparse, lift_ok_bind, Hparams, lift_ok_bind.
  by rewrite Htarget.
Qed.

(** ** Grouping and dispatch *)

Lemma emit_bind {B} (e : Effect) (f : unit -> Coro B) :
  emit e ≫= f = (e :: effects (f tt), outcome (f tt)).
Proof. unfold emit, mbind, Coro_bind, effects, outcome. by destruct (f tt). Qed.

Lemma send_notices_run event_content (moderators : list UserID) :
  send_notices event_content moderators =
  (map (fun u => send_notice (to_string u) EventTypes_Message event_content)
     moderators, Ok tt).
Proof.
  induction moderators as [|u rest IH]; [done|].
  cbn [send_notices map]. by rewrite emit_bind, IH.
Qed.

Lemma notify_mine_run hs event_content (all_moderators : list UserID) :
  notify_mine hs event_content all_moderators =
  (map (fun u => send_notice (to_string u) EventTypes_Message event_content)
     (filter (fun u => domain u = hostname hs) all_moderators), Ok tt).
Proof.
  induction all_moderators as [|u rest IH]; [done|].
  cbn [notify_mine]. rewrite filter_cons. unfold is_mine.
  case_bool_decide; case_decide; try done.
  - by rewrite emit_bind, IH.
  - by rewrite mret_bind, IH.
Qed.

(** Every round of the grouping loop files the moderator under the domain
    of the reporting user, so the dictionary never has another key. *)
Lemma group_moderators_by_reporter user (moderators : list UserID) :
  group_moderators user moderators =
  match moderators with
  | [] => []
  | _ :: _ => [(domain user, moderators)]
  end.
Proof.
  unfold group_moderators.
  assert (Hinv : forall ms acc,
    fold_left (group_step user) ms [(domain user, acc)] =
    [(domain user, acc ++ ms)]).
  { induction ms as [|m ms IH]; intros acc; simpl.
    - by rewrite app_nil_r.
    - unfold group_step at 2. simpl. rewrite decide_True by done. simpl.
      rewrite decide_True by done. by rewrite IH, <- app_assoc. }
  destruct moderators as [|m ms]; [done|]. simpl.
  unfold group_step at 2. simpl. apply (Hinv ms [m]).
Qed.

Lemma dispatch_payloads hs event_content
    (groups : list (string * list UserID)) e :
  e ∈ effects (dispatch hs event_content groups) ->
  payload_of e = Some event_content.
Proof.
  induction groups as [|[hs_ moderators] rest IH]; cbn [dispatch].
  - by intros ?%elem_of_nil.
  - rewrite effects_bind. intros [Hin|Hin]%elem_of_app.
    + case_bool_decide.
      * destruct (server_notices_is_enabled hs);
          [|by apply elem_of_nil in Hin].
        rewrite send_notices_run in Hin. simpl in Hin.
        apply list_elem_of_fmap in Hin as (u & -> & _). done.
      * destruct (should_send_federation hs);
          [|by apply elem_of_nil in Hin].
        by apply list_elem_of_singleton in Hin as ->.
    + destruct (outcome _); [by apply IH | by apply elem_of_nil in Hin].
Qed.

(** X4: what the dispatch path does once its checks have passed and the
    moderators are resolved.  With no moderator it makes no call.
    Otherwise, when the domain of the reporting user is this server's
    hostname, it sends one server notice per moderator, in order, if the
    notice subsystem is enabled, and nothing if it is disabled; when the
    domain is another one, it sends a single EDU to that domain if this
    server sends federation, and nothing if not.  It returns [None]. *)
Lemma room_moderators_run hs room event_id user reason score nature event
    (moderators : list UserID) :
  store_events hs (JStr event_id) = Some event ->
  ev_room_id event = to_string room ->
  filter_events_for_client hs (to_string user) [event] true <> [] ->
  get_moderators hs (ObjRoomID room) = ([], Ok moderators) ->
  let event_content :=
    report_event_content room event_id user reason score nature in
  _report_to_room_moderators hs room event_id user reason score nature =
  (match moderators with
   | [] => []
   | _ :: _ =>
       if bool_decide (hostname hs = domain user) then
         if server_notices_is_enabled hs then
           map (fun u =>
                  send_notice (to_string u) EventTypes_Message event_content)
             moderators
         else []
       else if should_send_federation hs then
         [build_and_send_edu (domain user) EduTypes_ContentReport
            event_content]
       else []
   end, Ok None).
Proof.
  intros Hev Hroom Hvis Hmods event_content.
  erewrite room_moderators_checked by done.
  rewrite Hmods. change ([], Ok moderators) with (lift (Ok moderators)).
  rewrite !lift_ok_bind, group_moderators_by_reporter.
  fold event_content.
  destruct moderators as [|m ms]; [done|].
  cbn [dispatch]. case_bool_decide.
  - destruct (server_notices_is_enabled hs); [|done].
    rewrite send_notices_run.
    unfold mbind, Coro_bind, mret, Coro_ret. simpl. by rewrite !app_nil_r.
  - by destruct (should_send_federation hs).
Qed.

(** Whenever the dispatch path returns, it returns [None]: the function
    has no [return] statement. *)
Lemma room_moderators_returns_none hs room event_id user reason score nature
    r :
  outcome
    (_report_to_room_moderators hs room event_id user reason score nature) =
    Ok r ->
  r = None.
Proof.
  destruct (store_events hs (JStr event_id)) as [event|] eqn:Hev.
  2:{ by rewrite room_moderators_no_event. }
  destruct (decide (ev_room_id event = to_string room)) as [Hroom|Hroom].
  2:{ by erewrite room_moderators_other_room. }
  destruct (filter_events_for_client hs (to_string user) [event] true)
    as [|v vs] eqn:Hvis.
  { by erewrite room_moderators_invisible. }
  erewrite room_moderators_checked; [|done..|by rewrite Hvis].
  rewrite !outcome_bind.
  destruct (outcome (get_moderators hs (ObjRoomID room))) as [again|err];
    [|done].
  rewrite outcome_bind.
  destruct (outcome (dispatch _ _ _)); [|done].
  by intros [= <-].
Qed.

(** ** The federated handler *)

Lemma on_receive_by_lookup hs origin (edu_content : JsonDict) :
  on_receive_report_through_federation (UserID := UserID) (RoomID := RoomID)
    hs origin edu_content =
  match edu_content !! "room_id" with
  | None => raise (KeyError "room_id")
  | Some room_id =>
  match edu_content !! "event_id" with
  | None => raise (KeyError "event_id")
  | Some event_id =>
  match edu_content !! "reporter_id" with
  | None => raise (KeyError "reporter_id")
  | Some reporter_id =>
  match edu_content !! "score" with
  | None => raise (KeyError "score")
  | Some score =>
  match edu_content !! "reason" with
  | None => raise (KeyError "reason")
  | Some reason =>
      ingest_report (UserID := UserID) (RoomID := RoomID) hs origin
        room_id event_id reporter_id score reason
  end end end end end.
Proof.
  unfold on_receive_report_through_federation, dict_pop.
  destruct (edu_content !! "room_id") as [room_id|]; [|done].
  rewrite lift_ok_bind, lookup_delete_ne by done.
  destruct (edu_content !! "event_id") as [event_id|]; [|done].
  rewrite lift_ok_bind, !lookup_delete_ne by done.
  destruct (edu_content !! "reporter_id") as [reporter_id|]; [|done].
  rewrite lift_ok_bind, !lookup_delete_ne by done.
  destruct (edu_content !! "score") as [score|]; [|done].
  rewrite lift_ok_bind, !lookup_delete_ne by done.
  destruct (edu_content !! "reason") as [reason|]; [|done].
  by rewrite lift_ok_bind.
Qed.

(** Every effect of the handler after the pops: a warning, or a notice
    with the rebuilt payload to a resolved moderator of this server. *)
Lemma ingest_report_effects hs origin room_id event_id reporter_id score
    reason e :
  e ∈ effects (ingest_report (UserID := UserID) (RoomID := RoomID) hs origin
                 room_id event_id reporter_id score reason) ->
  is_log e \/
  exists (u : UserID) (moderators : list UserID),
    e = send_notice (to_string u) EventTypes_Message
          (federated_event_content room_id event_id reporter_id score
             reason) /\
    outcome (get_moderators (RoomID := RoomID) hs (ObjJson room_id)) =
      Ok moderators /\
    u ∈ moderators /\ domain u = hostname hs.
Proof.
  unfold ingest_report.
  destruct (get_domain_from_id reporter_id) as [d|err];
    [rewrite lift_ok_bind | by intros ?%elem_of_nil].
  destruct (negb _).
  { intros ->%list_elem_of_singleton. left. by do 2 eexists. }
  destruct (store_events hs event_id) as [event|].
  2:{ intros ->%list_elem_of_singleton. left. by do 2 eexists. }
  destruct (negb _).
  { intros ->%list_elem_of_singleton. left. by do 2 eexists. }
  rewrite effects_bind, get_moderators_effects. cbn [app].
  destruct (outcome (get_moderators hs (ObjJson room_id)))
    as [moderators|err] eqn:Hmods; [|by intros ?%elem_of_nil].
  rewrite notify_mine_run. simpl.
  intros (u & -> & [Hmine Hin]%list_elem_of_filter)%list_elem_of_fmap.
  right. by exists u, moderators.
Qed.

Lemma report_event_content_keys room event_id user reason score nature :
  dom (report_event_content room event_id user reason score nature) =
  local_payload_keys.
Proof.
  unfold report_event_content, local_payload_keys.
  rewrite !dom_insert_L, dom_empty_L. set_solver.
Qed.

Lemma federated_event_content_keys room_id event_id reporter_id score reason :
  dom (federated_event_content room_id event_id reporter_id score reason) =
  federated_payload_keys.
Proof.
  unfold federated_event_content, federated_payload_keys.
  rewrite !dom_insert_L, dom_empty_L. set_solver.
Qed.

Lemma room_moderators_payloads hs room event_id user reason score nature e c :
  e ∈ effects
        (_report_to_room_moderators hs room event_id user reason score nature) ->
  payload_of e = Some c ->
  c = report_event_content room event_id user reason score nature.
Proof.
  destruct (store_events hs (JStr event_id)) as [event|] eqn:Hev.
  2:{ rewrite room_moderators_no_event by done. by intros ?%elem_of_nil. }
  destruct (decide (ev_room_id event = to_string room)) as [Hroom|Hroom].
  2:{ erewrite room_moderators_other_room by done. by intros ?%elem_of_nil. }
  destruct (filter_events_for_client hs (to_string user) [event] true)
    as [|v vs] eqn:Hvis.
  { erewrite room_moderators_invisible by done. by intros ?%elem_of_nil. }
  erewrite room_moderators_checked; [|done..|by rewrite Hvis].
  rewrite !effects_bind, get_moderators_effects. cbn [app].
  destruct (outcome (get_moderators hs (ObjRoomID room))) as [again|err];
    [|by intros ?%elem_of_nil].
  rewrite effects_bind. intros [Hin|Hin]%elem_of_app.
  - apply dispatch_payloads in Hin. congruence.
  - destruct (outcome _); by apply elem_of_nil in Hin.
Qed.

(** C7: whatever arrives over federation, every collaborator call of the
    federated handler is a logged warning or a server notice to a resolved
    moderator whose domain is this server's hostname; it never sends an
    EDU, so a report received over federation is not propagated to other
    servers.  The delivery loop itself notifies exactly the moderators of
    this server. *)
Theorem federated_report_stays_local hs origin (edu_content : JsonDict) :
  (forall e,
     e ∈ effects (on_receive_report_through_federation
                    (UserID := UserID) (RoomID := RoomID)
                    hs origin edu_content) ->
     is_log e \/
     exists (u : UserID) (moderators : list UserID) room_id event_content,
       e = send_notice (to_string u) EventTypes_Message event_content /\
       edu_content !! "room_id" = Some room_id /\
       outcome (get_moderators (RoomID := RoomID) hs (ObjJson room_id)) =
         Ok moderators /\
       u ∈ moderators /\ domain u = hostname hs) /\
  (forall destination edu_type content,
     build_and_send_edu destination edu_type content
     ∉ effects (on_receive_report_through_federation
                  (UserID := UserID) (RoomID := RoomID)
                  hs origin edu_content)) /\
  (forall event_content (all_moderators : list UserID),
     effects (notify_mine hs event_content all_moderators) =
     map (fun u => send_notice (to_string u) EventTypes_Message event_content)
       (filter (fun u => domain u = hostname hs) all_moderators)).
Proof.
  assert (Hall : forall e,
     e ∈ effects (on_receive_report_through_federation
                    (UserID := UserID) (RoomID := RoomID)
                    hs origin edu_content) ->
     is_log e \/
     exists (u : UserID) (moderators : list UserID) room_id event_content,
       e = send_notice (to_string u) EventTypes_Message event_content /\
       edu_content !! "room_id" = Some room_id /\
       outcome (get_moderators (RoomID := RoomID) hs (ObjJson room_id)) =
         Ok moderators /\
       u ∈ moderators /\ domain u = hostname hs).
  { intros e. rewrite on_receive_by_lookup.
    destruct (edu_content !! "room_id") as [room_id|];
      [|by intros ?%elem_of_nil].
    destruct (edu_content !! "event_id") as [event_id|];
      [|by intros ?%elem_of_nil].
    destruct (edu_content !! "reporter_id") as [reporter_id|];
      [|by intros ?%elem_of_nil].
    destruct (edu_content !! "score") as [score|];
      [|by intros ?%elem_of_nil].
    destruct (edu_content !! "reason") as [reason|];
      [|by intros ?%elem_of_nil].
    intros [Hlog | (u & ms & -> & Hms & Hin & Hmine)]%ingest_report_effects;
      [by left | right].
    by exists u, ms, room_id,
      (federated_event_content room_id event_id reporter_id score reason). }
  split; [done|]. split.
  - intros destination edu_type content
      [(fmt & args & [=]) | (u & ms & r & c & [=] & _)]%Hall.
  - intros event_content all_moderators. by rewrite notify_mine_run.
Qed.

(** C4 (amended): an inbound content-report message that carries the five
    fields and fails a validation check (the domain of the reporter id
    differs from the sending origin; or the event is not resolvable
    locally; or the resolved event's room differs from the claimed room)
    is dropped: the handler logs one warning, sends no notification and
    returns normally. *)
Theorem invalid_federated_report_dropped hs origin (edu_content : JsonDict)
    room_id event_id reporter_id score reason :
  edu_content !! "room_id" = Some room_id ->
  edu_content !! "event_id" = Some event_id ->
  edu_content !! "reporter_id" = Some reporter_id ->
  edu_content !! "score" = Some score ->
  edu_content !! "reason" = Some reason ->
  (exists d, get_domain_from_id reporter_id = Ok d /\ d <> origin) \/
  (get_domain_from_id reporter_id = Ok origin /\
   (store_events hs event_id = None \/
    exists event,
      store_events hs event_id = Some event /\
      room_id <> JStr (ev_room_id event))) ->
  exists fmt args,
    on_receive_report_through_federation
      (UserID := UserID) (RoomID := RoomID) hs origin edu_content =
    ([logger_warning fmt args], Ok tt).
Proof.
  intros Hroom Hevent Hreporter Hscore Hreason Hbad.
  rewrite on_receive_by_lookup, Hroom, Hevent, Hreporter, Hscore, Hreason.
  unfold ingest_report.
  destruct Hbad as [(d & -> & Hd) | [-> Hbad]]; rewrite lift_ok_bind.
  - rewrite bool_decide_eq_false_2 by done. by do 2 eexists.
  - rewrite bool_decide_eq_true_2 by done. cbn [negb].
    destruct Hbad as [-> | (event & -> & Hother)]; [by do 2 eexists|].
    assert (py_str_eq (ev_room_id event) room_id = false) as ->.
    { destruct room_id; try done. simpl. apply bool_decide_eq_false_2.
      congruence. }
    by do 2 eexists.
Qed.

(** C5: the payload that is delivered does not depend on free-form
    fields of the caller.  On the local path two request bodies that both
    target "room-moderators" (and carry the required parameters) give the
    same run; on the federated path two EDU contents that agree on
    [room_id], [event_id], [reporter_id], [score] and [reason] give the
    same run.  Every payload delivered is the dictionary rebuilt from the
    validated fields, with a fixed set of keys. *)
Theorem payload_ignores_extra_fields hs user (body body' : JsonDict)
    room_id event_id reason score nature origin
    (edu_content edu_content' : JsonDict) :
  body !! "org.matrix.msc2938.target" = Some (JStr "room-moderators") ->
  body' !! "org.matrix.msc2938.target" = Some (JStr "room-moderators") ->
  assert_params_in_dict body ["reason"; "score"] = Ok tt ->
  assert_params_in_dict body' ["reason"; "score"] = Ok tt ->
  (forall k, k ∈ edu_fields -> edu_content !! k = edu_content' !! k) ->
  report (RoomID := RoomID) hs user body room_id event_id reason score nature =
  report (RoomID := RoomID) hs user body' room_id event_id reason score
    nature /\
  on_receive_report_through_federation
    (UserID := UserID) (RoomID := RoomID) hs origin edu_content =
  on_receive_report_through_federation
    (UserID := UserID) (RoomID := RoomID) hs origin edu_content' /\
  (forall e c,
     e ∈ effects (report (RoomID := RoomID) hs user body room_id event_id
                    reason score nature) ->
     payload_of e = Some c ->
     dom c = local_payload_keys /\
     exists room : RoomID,
       from_string room_id = Ok room /\
       c = report_event_content room event_id user reason (Some score)
             nature) /\
  (forall e c,
     e ∈ effects (on_receive_report_through_federation
                    (UserID := UserID) (RoomID := RoomID)
                    hs origin edu_content) ->
     payload_of e = Some c ->
     dom c = federated_payload_keys /\
     exists room_id event_id reporter_id score reason,
       edu_content !! "room_id" = Some room_id /\
       edu_content !! "event_id" = Some event_id /\
       edu_content !! "reporter_id" = Some reporter_id /\
       edu_content !! "score" = Some score /\
       edu_content !! "reason" = Some reason /\
       c = federated_event_content room_id event_id reporter_id score
             reason).
Proof.
  intros Htarget Htarget' Hparams Hparams' Hagree.
  assert (Hreport : forall b : JsonDict,
    b !! "org.matrix.msc2938.target" = Some (JStr "room-moderators") ->
    assert_params_in_dict b ["reason"; "score"] = Ok tt ->
    report (RoomID := RoomID) hs user b room_id event_id reason score nature =
    room ← lift (from_string (T := RoomID) room_id);
    _report_to_room_moderators hs room event_id user reason (Some score)
      nature).
  { intros b Hb Hp. unfold report.
    destruct (from_string room_id) as [room|err]; [|done].
    rewrite !lift_ok_bind, Hp, lift_ok_bind. by rewrite Hb. }
  split; [by rewrite !Hreport|]. split; [|split].
  - rewrite !on_receive_by_lookup.
    by rewrite <- !Hagree by (unfold edu_fields; set_solver).
  - intros e c. rewrite Hreport by done.
    destruct (from_string room_id) as [room|err];
      [rewrite lift_ok_bind | by intros ?%elem_of_nil].
    intros Hin Hc.
    rewrite (room_moderators_payloads _ _ _ _ _ _ _ _ _ Hin Hc).
    split; [apply report_event_content_keys | by exists room].
  - intros e c. rewrite on_receive_by_lookup.
    destruct (edu_content !! "room_id") as [r|];
      [|by intros ?%elem_of_nil].
    destruct (edu_content !! "event_id") as [ev|];
      [|by intros ?%elem_of_nil].
    destruct (edu_content !! "reporter_id") as [rep|];
      [|by intros ?%elem_of_nil].
    destruct (edu_content !! "score") as [sc|];
      [|by intros ?%elem_of_nil].
    destruct (edu_content !! "reason") as [rs|];
      [|by intros ?%elem_of_nil].
    intros [(fmt & args & ->) | (u & ms & -> & _)]%ingest_report_effects;
      [done|].
    intros [= <-]. split; [apply federated_event_content_keys|].
    by exists r, ev, rep, sc, rs.
Qed.

(** X11: a message that passes the three checks reaches
    [get_moderators(room_id)] with the [room_id] taken from the content: a
    [str], on which [to_string] is not defined; the handler raises
    [AttributeError], having logged and sent nothing. *)
Lemma validated_report_raises hs origin (edu_content : JsonDict)
    room_id event_id reporter_id score reason event :
  edu_content !! "room_id" = Some room_id ->
  edu_content !! "event_id" = Some event_id ->
  edu_content !! "reporter_id" = Some reporter_id ->
  edu_content !! "score" = Some score ->
  edu_content !! "reason" = Some reason ->
  get_domain_from_id reporter_id = Ok origin ->
  store_events hs event_id = Some event ->
  room_id = JStr (ev_room_id event) ->
  on_receive_report_through_federation
    (UserID := UserID) (RoomID := RoomID) hs origin edu_content =
  ([], Raise (AttributeError "to_string")).
Proof.
  intros Hroom Hevent Hreporter Hscore Hreason Hdomain Hstore ->.
  rewrite on_receive_by_lookup, Hroom, Hevent, Hreporter, Hscore, Hreason.
  unfold ingest_report. rewrite Hdomain, lift_ok_bind, Hstore.
  rewrite bool_decide_eq_true_2 by done. cbn [negb py_str_eq].
  rewrite bool_decide_eq_true_2 by done. cbn [negb].
  by rewrite get_moderators_json.
Qed.

End Properties.

(** * Runs on the reference homeserver *)

Section Runs.
Import Reference.

(** C1: Alice, a user of [local.org], reports [$ev1] to the moderators of
    the room; the moderators are Bob on [local.org] and Carol on
    [remote.org].  The grouping loop files both under Alice's domain:
    Carol receives a local server notice and no EDU is sent to
    [remote.org]. *)
Theorem remote_moderator_grouped_as_local :
  get_moderators (local_hs true) (ObjRoomID the_room) =
    ([], Ok [bob; carol]) /\
  group_moderators alice [bob; carol] = [("local.org", [bob; carol])] /\
  let payload :=
    report_event_content the_room "$ev1" alice "spam" (Some (-50)) None in
  report (RoomID := RoomID) (local_hs true) alice moderators_body
    "!room:local.org" "$ev1" "spam" (-50) None =
  ([send_notice "@bob:local.org" "m.room.message" payload;
    send_notice "@carol:remote.org" "m.room.message" payload], Ok None).
Proof. repeat split; vm_compute; reflexivity. Qed.

(** C8: the same report succeeds on both paths; the admin path returns
    [(200, {})], the room-moderators path returns [None]. *)
Theorem room_moderators_path_returns_none :
  outcome (report (RoomID := RoomID) (local_hs true) alice admins_body
             "!room:local.org" "$ev1" "spam" (-50) None) =
    Ok (Some (200, ∅)) /\
  outcome (report (RoomID := RoomID) (local_hs true) alice moderators_body
             "!room:local.org" "$ev1" "spam" (-50) None) =
    Ok None.
Proof. split; vm_compute; reflexivity. Qed.

(** C9: a report from [remote.org] that passes the three checks, for a
    room of which Bob, a user of this server, is a moderator: whether the
    notice subsystem is enabled or not, the handler raises
    [AttributeError] on [get_moderators(room_id)] and no notice is
    sent.  The local path, with notices disabled, sends nothing either. *)
Theorem federated_report_raises_before_delivery :
  get_moderators (local_hs true) (ObjRoomID the_room) =
    ([], Ok [bob; carol]) /\
  is_mine (local_hs true) bob = true /\
  on_receive_report_through_federation (UserID := UserID) (RoomID := RoomID)
    (local_hs true) "remote.org" inbound_edu =
    ([], Raise (AttributeError "to_string")) /\
  on_receive_report_through_federation (UserID := UserID) (RoomID := RoomID)
    (local_hs false) "remote.org" inbound_edu =
    ([], Raise (AttributeError "to_string")) /\
  report (RoomID := RoomID) (local_hs false) alice moderators_body
    "!room:local.org" "$ev1" "spam" (-50) None = ([], Ok None).
Proof. repeat split; vm_compute; reflexivity. Qed.

(** C4, as stated, fails: an inbound content without [reporter_id] is not
    dropped, the handler raises [KeyError]. *)
Lemma federated_report_missing_field_raises :
  on_receive_report_through_federation (UserID := UserID) (RoomID := RoomID)
    (local_hs true) "remote.org" (delete "reporter_id" inbound_edu) =
    ([], Raise (KeyError "reporter_id")) /\
  ~ exists log,
      on_receive_report_through_federation
        (UserID := UserID) (RoomID := RoomID)
        (local_hs true) "remote.org" (delete "reporter_id" inbound_edu) =
      (log, Ok tt).
Proof.
  assert (Hrun :
    on_receive_report_through_federation (UserID := UserID) (RoomID := RoomID)
      (local_hs true) "remote.org" (delete "reporter_id" inbound_edu) =
    ([], Raise (KeyError "reporter_id"))) by (vm_compute; reflexivity).
  split; [exact Hrun|]. intros [log Hlog]. rewrite Hrun in Hlog.
  discriminate Hlog.
Qed.

(** ** The theorems at concrete inputs *)

Lemma get_moderators_exact_witness :
  get_current_state (local_hs true) (to_string the_room)
    EventTypes_PowerLevels "" = Some room_levels /\
  (exists moderators : list UserID,
     get_moderators (local_hs true) (ObjRoomID the_room) =
       ([], Ok moderators) /\
     Forall2 (fun member u => from_string member = Ok u)
       ["@bob:local.org"; "@carol:remote.org"] moderators) /\
  get_moderators (local_hs true) (ObjRoomID the_room) =
    ([], Ok [bob; carol]).
Proof.
  pose proof (get_moderators_exact (UserID := UserID) (local_hs true)
                the_room room_levels eq_refl) as [Hgeneral Hexample].
  split; [reflexivity|]. split.
  - apply (Hgeneral _ eq_refl).
    intros member Hin.
    apply elem_of_cons in Hin as [->|Hin]; [eexists; reflexivity|].
    apply elem_of_cons in Hin as [->|Hin]; [eexists; reflexivity|].
    apply elem_of_nil in Hin. destruct Hin.
  - apply (Hexample "@bob:local.org" "@carol:remote.org" "@dave:local.org");
      reflexivity.
Defined.

Lemma get_moderators_users_unguarded_witness :
  get_current_state (homeserver true (Some levels_without_users))
    (to_string the_room) EventTypes_PowerLevels "" =
    Some levels_without_users /\
  pl_users levels_without_users = None /\
  get_moderators (UserID := UserID)
    (homeserver true (Some levels_without_users)) (ObjRoomID the_room) =
    ([], Raise (KeyError "users")).
Proof.
  split; [reflexivity|]. split; [reflexivity|].
  assert (Hstate :
    get_current_state (homeserver true (Some levels_without_users))
      (to_string the_room) EventTypes_PowerLevels "" =
    Some levels_without_users) by reflexivity.
  apply (get_moderators_users_unguarded (UserID := UserID)
           (homeserver true (Some levels_without_users)) the_room
           levels_without_users Hstate).
  reflexivity.
Defined.

Lemma no_power_levels_no_moderators_witness :
  get_current_state (homeserver true None) (to_string the_room)
    EventTypes_PowerLevels "" = None /\
  get_moderators (UserID := UserID) (homeserver true None)
    (ObjRoomID the_room) =
    ([], Raise (not_found "This room doesn't seem to have moderators")) /\
  effects (_report_to_room_moderators (homeserver true None) the_room
             "$ev1" alice "spam" (Some (-50)) None) = [] /\
  outcome (_report_to_room_moderators (homeserver true None) the_room
             "$ev1" alice "spam" (Some (-50)) None) =
    Raise (not_found "This room doesn't seem to have moderators").
Proof.
  assert (Hstate :
    get_current_state (homeserver true None) (to_string the_room)
      EventTypes_PowerLevels "" = None) by reflexivity.
  pose proof (no_power_levels_no_moderators (UserID := UserID)
                (homeserver true None) the_room Hstate) as [Hresolve Hrun].
  split; [reflexivity|]. split; [exact Hresolve|].
  destruct (Hrun "$ev1" alice "spam" (Some (-50)) None)
    as (Hquiet & _ & Herror).
  split; [exact Hquiet|].
  apply (Herror {| ev_room_id := "!room:local.org" |});
    [reflexivity | reflexivity | discriminate].
Defined.

Lemma room_moderators_unseen_event_witness :
  store_events (local_hs true) (JStr "$unknown") = None /\
  (exists msg,
     _report_to_room_moderators (local_hs true) the_room "$unknown" alice
       "spam" (Some (-50)) None = ([], Raise (not_found msg))) /\
  (exists msg,
     report (RoomID := RoomID) (local_hs true) alice moderators_body
       "!room:local.org" "$unknown" "spam" (-50) None =
     ([], Raise (not_found msg))).
Proof.
  pose proof (room_moderators_unseen_event (local_hs true) the_room
                "$unknown" alice "spam" None (or_introl eq_refl))
    as [Hdirect Hreport].
  split; [reflexivity|]. split; [apply Hdirect|].
  apply Hreport; reflexivity.
Defined.

Lemma invalid_federated_report_dropped_witness :
  get_domain_from_id (JStr "@eve:remote.org") = Ok "remote.org" /\
  "remote.org" <> "other.org" /\
  exists fmt args,
    on_receive_report_through_federation
      (UserID := UserID) (RoomID := RoomID)
      (local_hs true) "other.org" inbound_edu =
    ([logger_warning fmt args], Ok tt).
Proof.
  split; [reflexivity|]. split; [discriminate|].
  apply (invalid_federated_report_dropped (UserID := UserID)
           (RoomID := RoomID) (local_hs true) "other.org" inbound_edu
           (JStr "!room:local.org") (JStr "$ev1") (JStr "@eve:remote.org")
           (JInt (-50)) (JStr "spam"));
    try reflexivity.
  left. exists "remote.org". split; [reflexivity | discriminate].
Defined.

Lemma payload_ignores_extra_fields_witness :
  crafted_body !! "msgtype" = Some (JStr "m.text") /\
  crafted_edu !! "formatted_body" = Some (JStr "<b>click</b>") /\
  report (RoomID := RoomID) (local_hs true) alice moderators_body
    "!room:local.org" "$ev1" "spam" (-50) None =
  report (RoomID := RoomID) (local_hs true) alice crafted_body
    "!room:local.org" "$ev1" "spam" (-50) None /\
  on_receive_report_through_federation (UserID := UserID) (RoomID := RoomID)
    (local_hs true) "other.org" inbound_edu =
  on_receive_report_through_federation (UserID := UserID) (RoomID := RoomID)
    (local_hs true) "other.org" crafted_edu.
Proof.
  split; [reflexivity|]. split; [reflexivity|].
  assert (Hagree : forall k, k ∈ edu_fields ->
            inbound_edu !! k = crafted_edu !! k).
  { intros k Hin. unfold edu_fields in Hin.
    repeat (apply elem_of_cons in Hin as [->|Hin]; [reflexivity|]).
    apply elem_of_nil in Hin. destruct Hin. }
  pose proof (payload_ignores_extra_fields (local_hs true) alice
                moderators_body crafted_body "!room:local.org" "$ev1" "spam"
                (-50) None "other.org" inbound_edu crafted_edu
                eq_refl eq_refl eq_refl eq_refl Hagree)
    as (Hlocal & Hfederated & _).
  split; [exact Hlocal | exact Hfederated].
Defined.

End Runs.

(** * Further properties of the handler *)

Section MoreProperties.
Context {UserID RoomID : Type}.
Context `{!DomainSpecificString UserID, !DomainSpecificString RoomID}.
Context `{!SynapseLib}.
Implicit Types (hs : HomeServer) (room : RoomID) (u user : UserID).

(** ** Intake: [report] *)

Lemma py_str_eq_false s (j : json) : j <> JStr s -> py_str_eq s j = false.
Proof.
  intros Hne. destruct j; try done. simpl.
  apply bool_decide_eq_false_2. congruence.
Qed.

(** X1: a body whose target is present but is neither "room-moderators"
    nor "homeserver-admins" (a value that is not a string included) is
    refused with a 400 [BAD_JSON] error, and nothing is stored or sent. *)
Theorem report_unknown_target hs user (body : JsonDict) room_id room
    event_id reason score nature target :
  from_string room_id = Ok room ->
  assert_params_in_dict body ["reason"; "score"] = Ok tt ->
  body !! "org.matrix.msc2938.target" = Some target ->
  target <> JStr "room-moderators" ->
  target <> JStr "homeserver-admins" ->
  exists msg,
    report (RoomID := RoomID) hs user body room_id event_id reason score
      nature = ([], Raise (SynapseError HTTP_BAD_REQUEST msg BAD_JSON)).
Proof.
  intros Hparse Hparams Htarget Hmods Hadmins. eexists.
  unfold report. rewrite Hparse, lift_ok_bind, Hparams, lift_ok_bind.
  rewrite Htarget. cbn [default from_option].
  rewrite !py_str_eq_false by done. reflexivity.
Qed.

(** X2: a body without a target, or with the target "homeserver-admins",
    is handed to the store and nothing else happens: the one collaborator
    call is [add_event_report] with the room, event, user, reason, the
    whole body as content and the clock's time, and the result is
    [(200, {})].  Neither the event store, nor the visibility filter, nor
    the room state is consulted. *)
Theorem report_admin_path hs user (body : JsonDict) room_id room event_id
    reason score nature :
  from_string room_id = Ok room ->
  assert_params_in_dict body ["reason"; "score"] = Ok tt ->
  body !! "org.matrix.msc2938.target" = None \/
  body !! "org.matrix.msc2938.target" = Some (JStr "homeserver-admins") ->
  report (RoomID := RoomID) hs user body room_id event_id reason score
    nature =
  ([add_event_report (to_string room) event_id (to_string user) reason body
      (time_msec hs)], Ok (Some (200, ∅))).
Proof.
  intros Hparse Hparams Htarget.
  unfold report. rewrite Hparse, lift_ok_bind, Hparams, lift_ok_bind.
  by destruct Htarget as [-> | ->].
Qed.

(** X3: the room id is parsed first and the required parameters are
    checked second, before the target is looked at: the error of the
    first of the two that fails is the result, and nothing is stored or
    sent, whatever the target. *)
Theorem report_rejects_before_routing hs user (body : JsonDict) room_id
    event_id reason score nature e :
  from_string (T := RoomID) room_id = Raise e \/
  (exists room,
     from_string room_id = Ok room /\
     assert_params_in_dict body ["reason"; "score"] = Raise e) ->
  report (RoomID := RoomID) hs user body room_id event_id reason score
    nature = ([], Raise e).
Proof.
  unfold report. intros [-> | (room & -> & Hparams)]; [done|].
  by rewrite lift_ok_bind, Hparams.
Qed.

(** ** Moderator resolution *)

Lemma collect_moderators_sound level items :
  forall (acc res : list UserID),
  collect_moderators level items acc = Ok res ->
  exists ms,
    res = acc ++ ms /\
    Forall2 (fun member u => from_string member = Ok u)
      (qualifying level items) ms.
Proof.
  induction items as [|[member l] items IH]; intros acc res; simpl.
  - intros [= <-]. exists []. by rewrite app_nil_r.
  - rewrite qualifying_cons. case_bool_decide; [|apply IH].
    destruct (from_string member) as [u|err] eqn:Hu; [|done].
    intros (ms & -> & Hall)%IH. exists (u :: ms).
    rewrite <- app_assoc. split; [done | by constructor].
Qed.

Lemma collect_moderators_app level items items' :
  forall acc : list UserID,
  collect_moderators level (items ++ items') acc =
  collect_moderators level items acc ≫= collect_moderators level items'.
Proof.
  induction items as [|[member l] items IH]; intros acc; [done|].
  simpl. case_bool_decide; [|apply IH].
  destruct (from_string member) as [u|err]; [apply IH | done].
Qed.

Lemma qualifying_elem level items member :
  member ∈ qualifying level items ->
  exists l, (member, l) ∈ items /\ level <= l.
Proof.
  unfold qualifying.
  intros ([m l] & -> & [Hl Hin]%list_elem_of_filter)%list_elem_of_fmap.
  by exists l.
Qed.

(** X6: whenever moderator resolution returns, it made no collaborator
    call, the room has a power-level event with a [users] mapping, the
    result is the parsed ids of the members at or above the threshold, in
    the order of the mapping, and every user returned has a level that is
    at least the ban level and at least the kick level (50 when absent). *)
Theorem get_moderators_sound hs room (moderators : list UserID) t :
  get_moderators hs (ObjRoomID room) = (t, Ok moderators) ->
  t = [] /\
  exists content items,
    get_current_state hs (to_string room) EventTypes_PowerLevels "" =
      Some content /\
    pl_users content = Some items /\
    Forall2 (fun member u => from_string member = Ok u)
      (qualifying (moderator_level content) items) moderators /\
    (forall u, u ∈ moderators ->
       exists member l,
         (member, l) ∈ items /\ from_string member = Ok u /\
         default 50 (pl_ban content) <= l /\
         default 50 (pl_kick content) <= l).
Proof.
  rewrite get_moderators_room.
  destruct (get_current_state _ _ _ _) as [content|]; [|done].
  destruct (pl_users content) as [items|] eqn:Husers; [|done].
  unfold lift. intros [= <- Hcollect]. split; [done|].
  apply collect_moderators_sound in Hcollect as (ms & -> & Hall).
  exists content, items. split; [done|]. split; [done|].
  split; [done|]. intros u Hin. cbn [app] in Hin.
  apply list_elem_of_lookup in Hin as [i Hi].
  destruct (Forall2_lookup_r _ _ _ _ _ Hall Hi) as (member & Hm & Hparse).
  apply list_elem_of_lookup_2, qualifying_elem in Hm as (l & Hl & Hlevel).
  exists member, l. unfold moderator_level in Hlevel. cbn zeta in Hlevel.
  repeat split; [done | done | lia | lia].
Qed.

(** X7: a key of the [users] mapping that is at or above the threshold
    and is not a user id makes resolution fail with the parser's error,
    provided the qualifying keys before it parse; keys below the threshold
    are not parsed. *)
Theorem get_moderators_bad_member hs room content pre member level post e :
  get_current_state hs (to_string room) EventTypes_PowerLevels "" =
    Some content ->
  pl_users content = Some (pre ++ (member, level) :: post) ->
  (forall m, m ∈ qualifying (moderator_level content) pre ->
     exists u, from_string m = Ok u) ->
  moderator_level content <= level ->
  from_string (T := UserID) member = Raise e ->
  get_moderators (UserID := UserID) hs (ObjRoomID room) = ([], Raise e).
Proof.
  intros Hstate Husers Hpre Hlevel Hbad.
  rewrite get_moderators_room, Hstate, Husers, collect_moderators_app.
  destruct (collect_moderators_spec (moderator_level content) pre [] Hpre)
    as (ms & -> & _).
  unfold mbind at 1, Res_bind. cbn [collect_moderators].
  rewrite bool_decide_eq_true_2 by done. by rewrite Hbad.
Qed.

(** ** Dispatch *)

(** X5: when the event checks pass and moderator resolution raises, the
    report fails with that same exception and no notification is made. *)
Theorem room_moderators_resolution_error hs room event_id user reason score
    nature event e :
  store_events hs (JStr event_id) = Some event ->
  ev_room_id event = to_string room ->
  filter_events_for_client hs (to_string user) [event] true <> [] ->
  outcome (get_moderators (UserID := UserID) hs (ObjRoomID room)) = Raise e ->
  _report_to_room_moderators hs room event_id user reason score nature =
  ([], Raise e).
Proof.
  intros Hev Hroom Hvis Hraise. erewrite room_moderators_checked by done.
  pose proof (get_moderators_effects (UserID := UserID) hs (ObjRoomID room))
    as Hquiet.
  destruct (get_moderators hs (ObjRoomID room)) as [t r].
  unfold effects, outcome in *. simpl in *. by subst.
Qed.

Lemma dispatch_run hs event_content (groups : list (string * list UserID)) :
  dispatch hs event_content groups =
  (flat_map
     (fun '(hs_, moderators) =>
        if bool_decide (hostname hs = hs_) then
          if server_notices_is_enabled hs then
            map (fun u =>
                   send_notice (to_string u) EventTypes_Message event_content)
              moderators
          else []
        else if should_send_federation hs then
          [build_and_send_edu hs_ EduTypes_ContentReport event_content]
        else [])
     groups, Ok tt).
Proof.
  induction groups as [|[hs_ moderators] rest IH]; [done|].
  cbn [dispatch flat_map]. rewrite IH. case_bool_decide.
  - destruct (server_notices_is_enabled hs); [|done].
    rewrite send_notices_run. reflexivity.
  - by destruct (should_send_federation hs).
Qed.

(** X12: every call of the dispatch loop is either a server notice to a
    moderator of a group keyed by this server's hostname, made only when
    the notice subsystem is enabled, or an EDU to the key of a group that
    is not this server's hostname, made only when this server sends
    federation; each carries the payload unchanged. *)
Theorem dispatch_respects_switches hs event_content
    (groups : list (string * list UserID)) e :
  e ∈ effects (dispatch hs event_content groups) ->
  (exists u moderators,
     e = send_notice (to_string u) EventTypes_Message event_content /\
     server_notices_is_enabled hs = true /\
     (hostname hs, moderators) ∈ groups /\ u ∈ moderators) \/
  (exists destination moderators,
     e = build_and_send_edu destination EduTypes_ContentReport
           event_content /\
     should_send_federation hs = true /\
     destination <> hostname hs /\ (destination, moderators) ∈ groups).
Proof.
  rewrite dispatch_run. unfold effects. cbn [fst].
  intros ([hs_ moderators] & Hin & He)%list_elem_of_In%in_flat_map.
  apply list_elem_of_In in Hin, He. case_bool_decide as Hhost.
  - destruct (server_notices_is_enabled hs) eqn:Hon;
      [|by apply elem_of_nil in He].
    apply list_elem_of_fmap in He as (u & -> & Hu). subst hs_.
    left. by exists u, moderators.
  - destruct (should_send_federation hs) eqn:Hon;
      [|by apply elem_of_nil in He].
    apply list_elem_of_singleton in He as ->.
    right. exists hs_, moderators. by split_and!.
Qed.

(** X13: when this server sends federation, the dispatch loop sends one
    EDU per group whose key is not this server's hostname, in the order
    of the dictionary, however many moderators the group holds; when it
    does not send federation, it sends none. *)
Theorem dispatch_one_edu_per_remote_group hs event_content
    (groups : list (string * list UserID)) :
  omap edu_destination (effects (dispatch hs event_content groups)) =
  if should_send_federation hs
  then filter (fun d => d <> hostname hs) groups.*1
  else [].
Proof.
  rewrite dispatch_run. unfold effects. cbn [fst].
  induction groups as [|[hs_ moderators] rest IH]; cbn [flat_map].
  - by destruct (should_send_federation hs).
  - rewrite omap_app, IH. cbn [fmap list_fmap fst]. rewrite filter_cons.
    assert (Hnotices : forall ms : list UserID,
      omap edu_destination
        (map (fun u =>
                send_notice (to_string u) EventTypes_Message event_content)
           ms) = []).
    { induction ms as [|m ms IHms]; [done|]. simpl. apply IHms. }
    case_bool_decide as Hhost; case_decide as Hd; try congruence.
    + destruct (server_notices_is_enabled hs);
        [rewrite Hnotices|]; by destruct (should_send_federation hs).
    + by destruct (should_send_federation hs).
Qed.

(** ** The federated handler *)

(** X8: when one of the five fields is missing from the EDU content, the
    handler raises [KeyError] for the first missing one, in the order
    [room_id], [event_id], [reporter_id], [score], [reason]; nothing is
    logged and nothing is sent. *)
Theorem federated_missing_field hs origin (edu_content : JsonDict) pre k
    post :
  edu_fields = pre ++ k :: post ->
  (forall k', k' ∈ pre -> is_Some (edu_content !! k')) ->
  edu_content !! k = None ->
  on_receive_report_through_federation
    (UserID := UserID) (RoomID := RoomID) hs origin edu_content =
  ([], Raise (KeyError k)).
Proof.
  intros Hsplit Hpre Hk. rewrite on_receive_by_lookup.
  unfold edu_fields in Hsplit.
  destruct pre as [|? pre]; simplify_eq/=; [by rewrite Hk|].
  destruct (Hpre "room_id") as [? ->]; [set_solver|].
  destruct pre as [|? pre]; simplify_eq/=; [by rewrite Hk|].
  destruct (Hpre "event_id") as [? ->]; [set_solver|].
  destruct pre as [|? pre]; simplify_eq/=; [by rewrite Hk|].
  destruct (Hpre "reporter_id") as [? ->]; [set_solver|].
  destruct pre as [|? pre]; simplify_eq/=; [by rewrite Hk|].
  destruct (Hpre "score") as [? ->]; [set_solver|].
  destruct pre as [|? pre]; simplify_eq/=; [by rewrite Hk|].
  by destruct pre.
Qed.

(** X10: when the five fields are present and no domain can be extracted
    from the reporter id, the extraction error is raised to the caller:
    the message is not logged and dropped. *)
Theorem federated_bad_reporter_id hs origin (edu_content : JsonDict)
    room_id event_id reporter_id score reason e :
  edu_content !! "room_id" = Some room_id ->
  edu_content !! "event_id" = Some event_id ->
  edu_content !! "reporter_id" = Some reporter_id ->
  edu_content !! "score" = Some score ->
  edu_content !! "reason" = Some reason ->
  get_domain_from_id reporter_id = Raise e ->
  on_receive_report_through_federation
    (UserID := UserID) (RoomID := RoomID) hs origin edu_content =
  ([], Raise e).
Proof.
  intros Hroom Hevent Hreporter Hscore Hreason Hdomain.
  rewrite on_receive_by_lookup, Hroom, Hevent, Hreporter, Hscore, Hreason.
  unfold ingest_report. by rewrite Hdomain.
Qed.

(** X9: a run of the federated handler is one of two: it raises without
    having made any collaborator call, or it logs exactly one warning and
    returns.  In particular it sends no server notice and no EDU, and it
    returns normally only for a message it dropped. *)
Theorem federated_handler_raises_or_drops hs origin
    (edu_content : JsonDict) :
  let run :=
    on_receive_report_through_federation
      (UserID := UserID) (RoomID := RoomID) hs origin edu_content in
  (exists e, run = ([], Raise e)) \/
  (exists fmt args, run = ([logger_warning fmt args], Ok tt)).
Proof.
  cbn zeta. rewrite on_receive_by_lookup.
  destruct (edu_content !! "room_id") as [room_id|]; [|by left; eexists].
  destruct (edu_content !! "event_id") as [event_id|]; [|by left; eexists].
  destruct (edu_content !! "reporter_id") as [reporter_id|];
    [|by left; eexists].
  destruct (edu_content !! "score") as [score|]; [|by left; eexists].
  destruct (edu_content !! "reason") as [reason|]; [|by left; eexists].
  unfold ingest_report.
  destruct (get_domain_from_id reporter_id) as [d|err];
    [rewrite lift_ok_bind | by left; eexists].
  destruct (negb _); [by right; do 2 eexists|].
  destruct (store_events hs event_id) as [event|];
    [|by right; do 2 eexists].
  destruct (negb _); [by right; do 2 eexists|].
  rewrite get_moderators_json. left. by eexists.
Qed.

End MoreProperties.

(** ** The further properties at concrete inputs *)

Section MoreRuns.
Import Reference.

Lemma report_unknown_target_witness :
  everyone_body !! "org.matrix.msc2938.target" = Some (JStr "everyone") /\
  exists msg,
    report (RoomID := RoomID) (local_hs true) alice everyone_body
      "!room:local.org" "$ev1" "spam" (-50) None =
    ([], Raise (SynapseError HTTP_BAD_REQUEST msg BAD_JSON)).
Proof.
  split; [reflexivity|].
  apply (report_unknown_target (local_hs true) alice everyone_body
           "!room:local.org" the_room "$ev1" "spam" (-50) None
           (JStr "everyone"));
    [reflexivity | reflexivity | reflexivity | discriminate | discriminate].
Defined.

Lemma report_admin_path_witness :
  store_events (local_hs true) (JStr "$unknown") = None /\
  report (RoomID := RoomID) (local_hs true) alice admins_body
    "!room:local.org" "$unknown" "spam" (-50) None =
  ([add_event_report "!room:local.org" "$unknown" "@alice:local.org" "spam"
      admins_body 1000], Ok (Some (200, ∅))).
Proof.
  split; [reflexivity|].
  exact (report_admin_path (local_hs true) alice admins_body
           "!room:local.org" the_room "$unknown" "spam" (-50) None
           eq_refl eq_refl (or_introl eq_refl)).
Defined.

Lemma report_rejects_before_routing_witness :
  report (RoomID := RoomID) (local_hs true) alice ∅
    "room" "$ev1" "spam" (-50) None =
    ([], Raise (SynapseError 400 "Expected sigil" INVALID_PARAM)) /\
  report (RoomID := RoomID) (local_hs true) alice
    (<["org.matrix.msc2938.target" := JStr "everyone"]> ∅)
    "!room:local.org" "$ev1" "spam" (-50) None =
    ([], Raise (SynapseError 400 "Missing params" MISSING_PARAM)).
Proof.
  split.
  - apply (report_rejects_before_routing (RoomID := RoomID)).
    left. reflexivity.
  - apply (report_rejects_before_routing (RoomID := RoomID)).
    right. exists the_room. split; reflexivity.
Defined.

Lemma room_moderators_run_witness :
  get_moderators (local_hs true) (ObjRoomID the_room) =
    ([], Ok [bob; carol]) /\
  domain alice = hostname (local_hs true) /\
  let payload :=
    report_event_content the_room "$ev1" alice "spam" (Some (-50)) None in
  _report_to_room_moderators (local_hs true) the_room "$ev1" alice "spam"
    (Some (-50)) None =
  ([send_notice "@bob:local.org" "m.room.message" payload;
    send_notice "@carol:remote.org" "m.room.message" payload], Ok None).
Proof.
  split; [reflexivity|]. split; [reflexivity|].
  assert (Hvisible :
    filter_events_for_client (local_hs true) (to_string alice)
      [{| ev_room_id := "!room:local.org" |}] true <> []) by discriminate.
  exact (room_moderators_run (local_hs true) the_room "$ev1" alice "spam"
           (Some (-50)) None {| ev_room_id := "!room:local.org" |}
           [bob; carol] eq_refl eq_refl Hvisible eq_refl).
Defined.

Lemma room_moderators_resolution_error_witness :
  outcome (get_moderators (UserID := UserID)
             (homeserver true (Some levels_without_users))
             (ObjRoomID the_room)) = Raise (KeyError "users") /\
  _report_to_room_moderators (homeserver true (Some levels_without_users))
    the_room "$ev1" alice "spam" (Some (-50)) None =
  ([], Raise (KeyError "users")).
Proof.
  split; [reflexivity|].
  apply (room_moderators_resolution_error
           (homeserver true (Some levels_without_users)) the_room "$ev1"
           alice "spam" (Some (-50)) None
           {| ev_room_id := "!room:local.org" |});
    [reflexivity | reflexivity | discriminate | reflexivity].
Defined.

Lemma get_moderators_sound_witness :
  get_moderators (local_hs true) (ObjRoomID the_room) =
    ([], Ok [bob; carol]) /\
  exists member l,
    (member, l) ∈ [("@bob:local.org", 100); ("@carol:remote.org", 50);
                   ("@dave:local.org", 0)] /\
    from_string member = Ok carol /\ 50 <= l /\ 50 <= l.
Proof.
  split; [reflexivity|].
  assert (Hrun : get_moderators (local_hs true) (ObjRoomID the_room) =
                 ([], Ok [bob; carol])) by reflexivity.
  destruct (get_moderators_sound (local_hs true) the_room [bob; carol] []
              Hrun) as (_ & content & items & Hstate & Husers & _ & Hlevels).
  injection Hstate as <-. injection Husers as <-.
  apply Hlevels. apply list_elem_of_In. right. left. reflexivity.
Defined.

Lemma get_moderators_bad_member_witness :
  moderator_level levels_with_bad_member = 60 /\
  from_string (T := UserID) "garbage" =
    Raise (SynapseError 400 "Expected sigil" INVALID_PARAM) /\
  get_moderators (UserID := UserID)
    (homeserver true (Some levels_with_bad_member)) (ObjRoomID the_room) =
  ([], Raise (SynapseError 400 "Expected sigil" INVALID_PARAM)).
Proof.
  split; [reflexivity|]. split; [reflexivity|].
  assert (Hstate :
    get_current_state (homeserver true (Some levels_with_bad_member))
      (to_string the_room) EventTypes_PowerLevels "" =
    Some levels_with_bad_member) by reflexivity.
  apply (get_moderators_bad_member (UserID := UserID)
           (homeserver true (Some levels_with_bad_member)) the_room
           levels_with_bad_member
           [("@bob:local.org", 100); ("garbage", 10)] "mallory" 60
           [("@carol:remote.org", 100)] _ Hstate);
    [reflexivity | | discriminate | reflexivity].
  intros m Hin.
  apply elem_of_cons in Hin as [->|Hin]; [eexists; reflexivity|].
  apply elem_of_nil in Hin. destruct Hin.
Defined.

Lemma federated_missing_field_witness :
  on_receive_report_through_federation (UserID := UserID) (RoomID := RoomID)
    (local_hs true) "remote.org" (delete "score" inbound_edu) =
  ([], Raise (KeyError "score")).
Proof.
  apply (federated_missing_field (UserID := UserID) (RoomID := RoomID)
           (local_hs true) "remote.org" (delete "score" inbound_edu)
           ["room_id"; "event_id"; "reporter_id"] "score" ["reason"]);
    [reflexivity | | reflexivity].
  intros k Hin.
  repeat (apply elem_of_cons in Hin as [->|Hin]; [eexists; reflexivity|]).
  apply elem_of_nil in Hin. destruct Hin.
Defined.

Lemma federated_bad_reporter_id_witness :
  get_domain_from_id (JStr "eve") =
    Raise (SynapseError 400 "Invalid ID" UNKNOWN) /\
  on_receive_report_through_federation (UserID := UserID) (RoomID := RoomID)
    (local_hs true) "remote.org" edu_bad_reporter =
  ([], Raise (SynapseError 400 "Invalid ID" UNKNOWN)).
Proof.
  split; [reflexivity|].
  apply (federated_bad_reporter_id (UserID := UserID) (RoomID := RoomID)
           (local_hs true) "remote.org" edu_bad_reporter
           (JStr "!room:local.org") (JStr "$ev1") (JStr "eve")
           (JInt (-50)) (JStr "spam"));
    reflexivity.
Defined.

Lemma validated_report_raises_witness :
  get_domain_from_id (JStr "@eve:remote.org") = Ok "remote.org" /\
  store_events (local_hs true) (JStr "$ev1") =
    Some {| ev_room_id := "!room:local.org" |} /\
  on_receive_report_through_federation (UserID := UserID) (RoomID := RoomID)
    (local_hs true) "remote.org" inbound_edu =
  ([], Raise (AttributeError "to_string")).
Proof.
  split; [reflexivity|]. split; [reflexivity|].
  apply (validated_report_raises (UserID := UserID) (RoomID := RoomID)
           (local_hs true) "remote.org" inbound_edu
           (JStr "!room:local.org") (JStr "$ev1") (JStr "@eve:remote.org")
           (JInt (-50)) (JStr "spam") {| ev_room_id := "!room:local.org" |});
    reflexivity.
Defined.

Lemma dispatch_respects_switches_witness :
  let groups := [("local.org", [bob]); ("remote.org", [carol])] in
  let edu :=
    build_and_send_edu "remote.org" EduTypes_ContentReport (∅ : JsonDict) in
  edu ∈ effects (dispatch (local_hs true) ∅ groups) /\
  ((exists u moderators,
      edu = send_notice (to_string u) EventTypes_Message ∅ /\
      server_notices_is_enabled (local_hs true) = true /\
      (hostname (local_hs true), moderators) ∈ groups /\ u ∈ moderators) \/
   (exists destination moderators,
      edu = build_and_send_edu destination EduTypes_ContentReport ∅ /\
      should_send_federation (local_hs true) = true /\
      destination <> hostname (local_hs true) /\
      (destination, moderators) ∈ groups)).
Proof.
  intros groups edu.
  assert (Hin : edu ∈ effects (dispatch (local_hs true) ∅ groups)).
  { apply list_elem_of_In. right. left. reflexivity. }
  split; [exact Hin|].
  exact (dispatch_respects_switches (local_hs true) ∅ groups edu Hin).
Defined.

End MoreRuns.
